(** * get_streaming_response: a shallow embedding of [streaming-function.py]

    The module has one function.  It talks to three collaborators: the
    [OpenAI()] constructor, [client.chat.completions.create] (which hands
    back an iterator of chunks) and IPython's [display(Markdown(..))].
    The collaborators are a record of oracles ([world]); what the function
    does to them is logged as a list of [event]s, and a Python exception is
    the [Raised] outcome of a small writer-plus-error monad. *)

From stdpp Require Import base option list strings gmap.

(** ** Data as the function sees it *)

(** A Python exception object. *)
Inductive exn : Type :=
| PyExn (what : string).

(** [chunk.choices[0].delta.content] is [Optional[str]]. *)
Record ChoiceDelta : Type := { content : option string }.

Record Choice : Type := { delta : ChoiceDelta }.

(** One element of the stream: only [choices] is read. *)
Record ChatCompletionChunk : Type := { choices : list Choice }.

(** One [next()] on the response iterator either hands over a chunk or
    raises; running off the end of the list is [StopIteration]. *)
Inductive stream_item : Type :=
| Yield (chunk : ChatCompletionChunk)
| Fail (e : exn).

Abbreviation Stream := (list stream_item).

(** A client handle, told apart by identity. *)
Record OpenAI : Type := { handle : nat }.

(** Keyword arguments of [client.chat.completions.create]; every message
    is a [dict] from field name to text. *)
Record request : Type := {
  model : string;
  messages : list (gmap string string);
  stream : bool
}.

Inductive outcome (A : Type) : Type :=
| Returned (a : A)
| Raised (e : exn).

Arguments Returned {A} a.
Arguments Raised {A} e.

(** The collaborators. *)
Record world : Type := {
  OpenAI_new : outcome OpenAI;
  completions_create : OpenAI -> request -> outcome Stream;
  display_Markdown : string -> outcome unit
}.

(** Calls made on the collaborators.  [EvClose] is the iterator's
    [close()] (what leaving a [with] block would call). *)
Inductive event : Type :=
| EvOpenAI
| EvCreate (client : OpenAI) (req : request)
| EvNext
| EvClose
| EvDisplay (markdown : string).

(** ** The effect monad: a log of calls and a value or an exception *)

Definition M (A : Type) : Type := (list event * outcome A)%type.

Definition trace {A} (m : M A) : list event := m.1.
Definition result {A} (m : M A) : outcome A := m.2.

#[global] Instance M_ret : MRet M := fun A a => ([], Returned a).

#[global] Instance M_bind : MBind M := fun A B f m =>
  match m with
  | (t, Returned a) => let r := f a in (t ++ r.1, r.2)
  | (t, Raised e) => (t, Raised e)
  end.

Definition raise {A} (e : exn) : M A := ([], Raised e).

(** Call a collaborator: log the call, then return or raise as it does. *)
Definition call {A} (ev : event) (o : outcome A) : M A := ([ev], o).

(** ** The function *)

Definition IndexError : exn := PyExn "IndexError".

(** Lines 49-52, the body of the [for]: [if chunk.choices:] is false on the
    empty list, [if content:] is false on [None] and on the empty string. *)
Definition loop_body (accumulated_response : string)
    (chunk : ChatCompletionChunk) : M string :=
  match choices chunk with
  | [] => mret accumulated_response
  | _ :: _ =>
      match choices chunk !! 0%nat with
      | None => raise IndexError
      | Some choice0 =>
          match content (delta choice0) with
          | None => mret accumulated_response
          | Some text =>
              if String.eqb text "" then mret accumulated_response
              else mret (accumulated_response +:+ text)
          end
      end
  end.

(** Line 48: [for chunk in response_stream]. *)
Fixpoint for_chunks (response_stream : Stream) (accumulated_response : string)
    : M string :=
  match response_stream with
  | [] => call EvNext (Returned accumulated_response)
  | Fail e :: _ => call EvNext (Raised e)
  | Yield chunk :: rest =>
      _ ← call EvNext (Returned tt);
      acc ← loop_body accumulated_response chunk;
      for_chunks rest acc
  end.

Definition default_model : string := "gpt-4o-mini".

(** Lines 29-30. *)
Definition client_or_default (w : world) (client : option OpenAI) : M OpenAI :=
  match client with
  | None => call EvOpenAI (OpenAI_new w)
  | Some c => mret c
  end.

(** Lines 33-36. *)
Definition build_messages (prompt system_prompt : string)
    : list (gmap string string) :=
  [ {[ "role" := "system"; "content" := system_prompt ]};
    {[ "role" := "user"; "content" := prompt ]} ].

(** Lines 5-57.  [model = None] is a call that leaves the argument out. *)
Definition get_streaming_response (w : world) (prompt system_prompt : string)
    (model : option string) (client : option OpenAI) : M string :=
  let model := default default_model model in
  client ← client_or_default w client;
  let messages := build_messages prompt system_prompt in
  let req := {| model := model; messages := messages; stream := true |} in
  response_stream ← call (EvCreate client req) (completions_create w client req);
  accumulated_response ← for_chunks response_stream "";
  _ ← call (EvDisplay accumulated_response)
           (display_Markdown w accumulated_response);
  mret accumulated_response.

(** ** What a run shows to the outside *)

(** Payloads handed to [display(Markdown(..))], in call order. *)
Definition displayed (t : list event) : list string :=
  omap (fun ev => match ev with EvDisplay md => Some md | _ => None end) t.

(** Chat-completion requests issued, with the handle they were issued on. *)
Definition requested (t : list event) : list (OpenAI * request) :=
  omap (fun ev => match ev with EvCreate c r => Some (c, r) | _ => None end) t.

Definition is_construct (ev : event) : bool :=
  match ev with EvOpenAI => true | _ => false end.

Definition is_next (ev : event) : bool :=
  match ev with EvNext => true | _ => false end.

Definition is_close (ev : event) : bool :=
  match ev with EvClose => true | _ => false end.

(** How often [OpenAI()] ran, [next()] was called, the stream was closed. *)
Definition constructed (t : list event) : nat := length (List.filter is_construct t).
Definition pulled (t : list event) : nat := length (List.filter is_next t).
Definition released (t : list event) : bool := existsb is_close t.

(** A stream was handed out: some [create] call is in the log and the
    service answered it with a stream. *)
Definition acquired (w : world) (t : list event) : bool :=
  existsb (fun cr => match completions_create w cr.1 cr.2 with
                     | Returned _ => true
                     | Raised _ => false
                     end) (requested t).

(** ** The vocabulary of the specification *)

(** The text delta a fragment delivers: that of its first choice, the empty
    text when there is no choice or the choice has no content. *)
Definition delta_text (chunk : ChatCompletionChunk) : string :=
  match choices chunk with
  | [] => ""
  | choice0 :: _ => default "" (content (delta choice0))
  end.

(** A fragment that delivers nothing. *)
Definition no_delta (chunk : ChatCompletionChunk) : bool :=
  String.eqb (delta_text chunk) "".

(** A fragment with one choice carrying the delta [d]. *)
Definition fragment (d : string) : ChatCompletionChunk :=
  {| choices := [ {| delta := {| content := Some d |} |} ] |}.

(** The same fragment with every choice after the first dropped. *)
Definition first_choice_only (chunk : ChatCompletionChunk) : ChatCompletionChunk :=
  {| choices := take 1 (choices chunk) |}.

(** [d1 + d2 + ... + dN]. *)
Definition concat_deltas (ds : list string) : string := String.concat "" ds.

Arguments concat_deltas : simpl never.

(** The request a call is expected to send (lines 39-43). *)
Definition outbound (prompt system_prompt : string) (model : option string)
    : request :=
  {| model := default default_model model;
     messages := build_messages prompt system_prompt;
     stream := true |}.

(** A stream item as the accumulation sees it: the delta, or the error. *)
Definition item_delta (it : stream_item) : outcome string :=
  match it with
  | Yield chunk => Returned (delta_text chunk)
  | Fail e => Raised e
  end.

(** Drop every choice after the first in every chunk of a stream. *)
Definition first_choices (s : Stream) : Stream :=
  (fun it => match it with
             | Yield chunk => Yield (first_choice_only chunk)
             | Fail e => Fail e
             end) <$> s.

(** Lines 46-57: what the call does once the service has handed out the
    stream [s]. *)
Definition after_create (w : world) (s : Stream) : M string :=
  for_chunks s "" ≫= fun accumulated_response =>
  call (EvDisplay accumulated_response)
       (display_Markdown w accumulated_response) ≫= fun _ =>
  mret accumulated_response.

(** ** Test fixtures *)

(** A service that answers every request with the stream [s]; the default
    client is handle 0 and rendering succeeds. *)
Definition scripted (s : Stream) : world :=
  {| OpenAI_new := Returned {| handle := 0 |};
     completions_create := fun _ _ => Returned s;
     display_Markdown := fun _ => Returned tt |}.

(** The scenario of the specification: "Hel", nothing, "lo, ", "World!". *)
Definition hello_chunks : list ChatCompletionChunk :=
  [ fragment "Hel"; {| choices := [] |}; fragment "lo, "; fragment "World!" ].

(** The same deltas in other clothes: a second choice that is never read,
    and an empty content where the scenario has no choice at all. *)
Definition hello_chunks_alt : list ChatCompletionChunk :=
  [ {| choices := [ {| delta := {| content := Some "Hel" |} |};
                    {| delta := {| content := Some "ignored" |} |} ] |};
    fragment ""; fragment "lo, "; fragment "World!" ].

(** Two fragments that deliver nothing: no choice, and a choice without
    content. *)
Definition silent_chunks : list ChatCompletionChunk :=
  [ {| choices := [] |};
    {| choices := [ {| delta := {| content := None |} |} ] |} ].

(** A connection that drops after the first fragment. *)
Definition dropped_stream : Stream :=
  [ Yield (fragment "Hel"); Fail (PyExn "APIConnectionError");
    Yield (fragment "lo") ].

(** No credentials in the environment: [OpenAI()] raises. *)
Definition no_credentials : world :=
  {| OpenAI_new := Raised (PyExn "OpenAIError");
     completions_create := fun _ _ => Returned [];
     display_Markdown := fun _ => Returned tt |}.

(** A service that turns every request down. *)
Definition rejecting : world :=
  {| OpenAI_new := Returned {| handle := 0 |};
     completions_create := fun _ _ => Raised (PyExn "RateLimitError");
     display_Markdown := fun _ => Returned tt |}.

(** A service that answers with [s], in a session that cannot render. *)
Definition headless (s : Stream) : world :=
  {| OpenAI_new := Returned {| handle := 0 |};
     completions_create := fun _ _ => Returned s;
     display_Markdown := fun _ => Raised (PyExn "NameError") |}.

(** ** Strings *)

Lemma append_nil_r (s : string) : s +:+ "" = s.
Proof. induction s as [|a s IH]; [reflexivity|]. change (String a (s +:+ "") = String a s). by rewrite IH. Qed.

Lemma append_assoc (s t u : string) : (s +:+ t) +:+ u = s +:+ (t +:+ u).
Proof.
  induction s as [|a s IH]; [reflexivity|].
  change (String a ((s +:+ t) +:+ u) = String a (s +:+ (t +:+ u))).
  by rewrite IH.
Qed.

Lemma concat_deltas_cons (d : string) (ds : list string) :
  concat_deltas (d :: ds) = d +:+ concat_deltas ds.
Proof.
  unfold concat_deltas. destruct ds as [|d' ds]; [|reflexivity].
  symmetry. apply append_nil_r.
Qed.

Lemma concat_deltas_app (xs ys : list string) :
  concat_deltas (xs ++ ys) = concat_deltas xs +:+ concat_deltas ys.
Proof.
  induction xs as [|x xs IH]; [reflexivity|].
  change ((x :: xs) ++ ys) with (x :: (xs ++ ys)).
  by rewrite !concat_deltas_cons, IH, append_assoc.
Qed.

(** ** The loop *)

(** The body never raises: it appends the fragment's delta. *)
Lemma loop_body_delta (acc : string) (chunk : ChatCompletionChunk) :
  loop_body acc chunk = mret (acc +:+ delta_text chunk).
Proof.
  unfold loop_body, delta_text.
  destruct (choices chunk) as [|choice0 more]; [by rewrite append_nil_r|].
  change ((choice0 :: more) !! 0%nat) with (Some choice0). cbv beta iota.
  destruct (content (delta choice0)) as [text|]; cbn; [|by rewrite append_nil_r].
  destruct (String.eqb_spec text "") as [->|_]; [by rewrite append_nil_r|reflexivity].
Qed.

(** A stream that only yields is drained: one [next()] per chunk and one
    more for the end, and the deltas are appended in arrival order. *)
Lemma for_chunks_yield (chunks : list ChatCompletionChunk) (acc : string) :
  for_chunks (Yield <$> chunks) acc
  = (replicate (S (length chunks)) EvNext,
     Returned (acc +:+ concat_deltas (delta_text <$> chunks))).
Proof.
  revert acc. induction chunks as [|c cs IH]; intros acc.
  - cbn. by rewrite append_nil_r.
  - change (for_chunks (Yield <$> c :: cs) acc)
      with (call EvNext (Returned tt) ≫= (fun _ => loop_body acc c ≫= for_chunks (Yield <$> cs))).
    rewrite loop_body_delta, fmap_cons, concat_deltas_cons, <- append_assoc.
    cbn. by rewrite IH.
Qed.

(** A stream that raises after some chunks: the exception comes out and
    nothing after it is looked at. *)
Lemma for_chunks_fail (chunks : list ChatCompletionChunk) (e : exn)
    (rest : Stream) (acc : string) :
  for_chunks ((Yield <$> chunks) ++ Fail e :: rest) acc
  = (replicate (S (length chunks)) EvNext, Raised e).
Proof.
  revert acc. induction chunks as [|c cs IH]; intros acc; [reflexivity|].
  change (for_chunks ((Yield <$> c :: cs) ++ Fail e :: rest) acc)
    with (call EvNext (Returned tt) ≫=
            (fun _ => loop_body acc c ≫= for_chunks ((Yield <$> cs) ++ Fail e :: rest))).
  rewrite loop_body_delta. cbn. by rewrite IH.
Qed.

Lemma for_chunks_cons_yield (chunk : ChatCompletionChunk) (rest : Stream)
    (acc : string) :
  for_chunks (Yield chunk :: rest) acc
  = (EvNext :: trace (for_chunks rest (acc +:+ delta_text chunk)),
     result (for_chunks rest (acc +:+ delta_text chunk))).
Proof.
  change (for_chunks (Yield chunk :: rest) acc)
    with (call EvNext (Returned tt) ≫=
            (fun _ => loop_body acc chunk ≫= for_chunks rest)).
  by rewrite loop_body_delta.
Qed.

(** Every stream either only yields, or yields some chunks and then raises. *)
Lemma stream_shape (s : Stream) :
  (∃ chunks, s = Yield <$> chunks)
  ∨ (∃ chunks e rest, s = (Yield <$> chunks) ++ Fail e :: rest).
Proof.
  induction s as [|[c|e] s IH].
  - left. by exists [].
  - destruct IH as [(cs & ->)|(cs & e & rest & ->)].
    + left. by exists (c :: cs).
    + right. by exists (c :: cs), e, rest.
  - right. by exists [], e, s.
Qed.

(** The loop calls nothing but [next()]. *)
Lemma for_chunks_trace (s : Stream) (acc : string) :
  ∃ n, trace (for_chunks s acc) = replicate n EvNext.
Proof.
  destruct (stream_shape s) as [(cs & ->)|(cs & e & rest & ->)].
  - rewrite for_chunks_yield. by eexists.
  - rewrite for_chunks_fail. by eexists.
Qed.

(** A loop that ends normally has pulled every item and the end marker. *)
Lemma for_chunks_returned (s : Stream) (acc text : string) :
  result (for_chunks s acc) = Returned text →
  trace (for_chunks s acc) = replicate (S (length s)) EvNext.
Proof.
  destruct (stream_shape s) as [(cs & ->)|(cs & e & rest & ->)].
  - intros _. by rewrite for_chunks_yield, length_fmap.
  - by rewrite for_chunks_fail.
Qed.

Lemma displayed_replicate_next (n : nat) : displayed (replicate n EvNext) = [].
Proof. by induction n. Qed.

Lemma requested_replicate_next (n : nat) : requested (replicate n EvNext) = [].
Proof. by induction n. Qed.

Lemma constructed_replicate_next (n : nat) : constructed (replicate n EvNext) = 0.
Proof. by induction n. Qed.

Lemma released_replicate_next (n : nat) : released (replicate n EvNext) = false.
Proof. by induction n. Qed.

Lemma pulled_replicate_next (n : nat) : pulled (replicate n EvNext) = n.
Proof. unfold pulled. induction n; [done|]. cbn. by f_equal. Qed.

(** ** The whole call *)

Lemma run_unfold (w : world) (prompt system_prompt : string)
    (model : option string) (client : option OpenAI) :
  get_streaming_response w prompt system_prompt model client
  = client_or_default w client ≫= fun c =>
    call (EvCreate c (outbound prompt system_prompt model))
         (completions_create w c (outbound prompt system_prompt model)) ≫=
    after_create w.
Proof. reflexivity. Qed.

Lemma run_served (w : world) (prompt system_prompt : string)
    (model : option string) (client : option OpenAI) (c : OpenAI) (s : Stream) :
  result (client_or_default w client) = Returned c →
  completions_create w c (outbound prompt system_prompt model) = Returned s →
  get_streaming_response w prompt system_prompt model client
  = (trace (client_or_default w client)
       ++ EvCreate c (outbound prompt system_prompt model)
       :: trace (after_create w s),
     result (after_create w s)).
Proof.
  intros Hc Hs. rewrite run_unfold.
  destruct (client_or_default w client) as [t o]. cbn in Hc. subst o.
  cbn. by rewrite Hs.
Qed.

Lemma after_create_returned (w : world) (s : Stream) (text : string) :
  result (for_chunks s "") = Returned text →
  after_create w s
  = (trace (for_chunks s "") ++ [EvDisplay text],
     match display_Markdown w text with
     | Returned _ => Returned text
     | Raised e => Raised e
     end).
Proof.
  intros H. unfold after_create.
  destruct (for_chunks s "") as [t o]. cbn in H. subst o. cbn.
  by destruct (display_Markdown w text).
Qed.

Lemma after_create_raised (w : world) (s : Stream) (e : exn) :
  result (for_chunks s "") = Raised e →
  after_create w s = (trace (for_chunks s ""), Raised e).
Proof.
  intros H. unfold after_create.
  destruct (for_chunks s "") as [t o]. cbn in H. by subst o.
Qed.

(** The log of everything after [create]: [next()] calls, then at most one
    [display]. *)
Lemma after_create_trace (w : world) (s : Stream) :
  ∃ n shown, trace (after_create w s) = replicate n EvNext ++ shown
    ∧ (shown = [] ∨ ∃ text, shown = [EvDisplay text]).
Proof.
  destruct (for_chunks_trace s "") as [n Hn].
  destruct (result (for_chunks s "")) as [text|e] eqn:Hr.
  - rewrite (after_create_returned _ _ _ Hr), Hn. exists n, [EvDisplay text].
    split; [done|]. right. by exists text.
  - rewrite (after_create_raised _ _ _ Hr), Hn. exists n, [].
    split; [by rewrite app_nil_r|by left].
Qed.

(** The requests a call issues: one, on the resolved handle, if a handle is
    available; none if building the default handle fails. *)
Lemma requested_run (w : world) (prompt system_prompt : string)
    (model : option string) (client : option OpenAI) :
  requested (trace (get_streaming_response w prompt system_prompt model client))
  = match result (client_or_default w client) with
    | Returned c => [(c, outbound prompt system_prompt model)]
    | Raised _ => []
    end.
Proof.
  rewrite run_unfold.
  assert (Hk : ∀ c, requested (trace
            (call (EvCreate c (outbound prompt system_prompt model))
               (completions_create w c (outbound prompt system_prompt model))
             ≫= after_create w)) = [(c, outbound prompt system_prompt model)]).
  { intros c. destruct (completions_create w c _) as [s|e]; [|done].
    destruct (after_create_trace w s) as (n & shown & Ht & Hshown).
    cbn. unfold trace in Ht. rewrite Ht. f_equal.
    unfold requested. rewrite omap_app. fold (requested (replicate n EvNext)).
    rewrite requested_replicate_next.
    by destruct Hshown as [->|[text ->]]. }
  destruct client as [c|]; cbn.
  - apply Hk.
  - destruct (OpenAI_new w) as [c|e]; [|done]. apply Hk.
Qed.

(** A call that was served a stream of chunks only: the log and the value. *)
Lemma run_yield (w : world) (prompt system_prompt : string)
    (model : option string) (client : option OpenAI) (c : OpenAI)
    (chunks : list ChatCompletionChunk) :
  result (client_or_default w client) = Returned c →
  completions_create w c (outbound prompt system_prompt model)
    = Returned (Yield <$> chunks) →
  let text := concat_deltas (delta_text <$> chunks) in
  get_streaming_response w prompt system_prompt model client
  = (trace (client_or_default w client)
       ++ EvCreate c (outbound prompt system_prompt model)
       :: replicate (S (length chunks)) EvNext ++ [EvDisplay text],
     match display_Markdown w text with
     | Returned _ => Returned text
     | Raised e => Raised e
     end).
Proof.
  intros Hc Hs text. rewrite (run_served _ _ _ _ _ _ _ Hc Hs).
  assert (Hr : result (for_chunks (Yield <$> chunks) "") = Returned text)
    by (by rewrite for_chunks_yield).
  by rewrite (after_create_returned _ _ _ Hr), for_chunks_yield.
Qed.

(** A call whose stream raised after some chunks. *)
Lemma run_fail (w : world) (prompt system_prompt : string)
    (model : option string) (client : option OpenAI) (c : OpenAI)
    (chunks : list ChatCompletionChunk) (e : exn) (rest : Stream) :
  result (client_or_default w client) = Returned c →
  completions_create w c (outbound prompt system_prompt model)
    = Returned ((Yield <$> chunks) ++ Fail e :: rest) →
  get_streaming_response w prompt system_prompt model client
  = (trace (client_or_default w client)
       ++ EvCreate c (outbound prompt system_prompt model)
       :: replicate (S (length chunks)) EvNext,
     Raised e).
Proof.
  intros Hc Hs. rewrite (run_served _ _ _ _ _ _ _ Hc Hs).
  assert (Hr : result (for_chunks ((Yield <$> chunks) ++ Fail e :: rest) "")
               = Raised e) by (by rewrite for_chunks_fail).
  by rewrite (after_create_raised _ _ _ Hr), for_chunks_fail.
Qed.

Lemma displayed_client_or_default (w : world) (client : option OpenAI) :
  displayed (trace (client_or_default w client)) = [].
Proof. by destruct client. Qed.

Lemma displayed_app (t1 t2 : list event) :
  displayed (t1 ++ t2) = displayed t1 ++ displayed t2.
Proof. apply omap_app. Qed.

(** Value and display payload of a call that was served chunks only. *)
Lemma run_yield_observed (w : world) (prompt system_prompt : string)
    (model : option string) (client : option OpenAI) (c : OpenAI)
    (chunks : list ChatCompletionChunk) :
  result (client_or_default w client) = Returned c →
  completions_create w c (outbound prompt system_prompt model)
    = Returned (Yield <$> chunks) →
  display_Markdown w (concat_deltas (delta_text <$> chunks)) = Returned () →
  result (get_streaming_response w prompt system_prompt model client)
    = Returned (concat_deltas (delta_text <$> chunks))
  ∧ displayed (trace (get_streaming_response w prompt system_prompt model client))
    = [concat_deltas (delta_text <$> chunks)].
Proof.
  intros Hc Hs Hd. rewrite (run_yield _ _ _ _ _ _ _ Hc Hs). cbn zeta.
  split.
  - unfold result. cbn. by rewrite Hd.
  - unfold trace at 1. cbn [fst].
    rewrite displayed_app, displayed_client_or_default.
    change (displayed (EvCreate ?a ?b :: ?t)) with (displayed t).
    by rewrite displayed_app, displayed_replicate_next.
Qed.

(** ** P1: order preservation *)

(** C1.  Served the fragments [chunks], whose text deltas in arrival order
    are [delta_text <$> chunks], the call returns exactly their
    concatenation [d1 + d2 + ... + dN], and that text is the one payload
    displayed. *)
Theorem order_preservation (w : world) (prompt system_prompt : string)
    (model : option string) (client : option OpenAI) (c : OpenAI)
    (chunks : list ChatCompletionChunk) :
  result (client_or_default w client) = Returned c →
  completions_create w c (outbound prompt system_prompt model)
    = Returned (Yield <$> chunks) →
  display_Markdown w (concat_deltas (delta_text <$> chunks)) = Returned () →
  result (get_streaming_response w prompt system_prompt model client)
    = Returned (concat_deltas (delta_text <$> chunks))
  ∧ displayed (trace (get_streaming_response w prompt system_prompt model client))
    = [concat_deltas (delta_text <$> chunks)].
Proof. apply run_yield_observed. Qed.

(** The scenario of the specification. *)
Lemma order_preservation_witness :
  result (get_streaming_response (scripted (Yield <$> hello_chunks))
            "What is this?" "Be brief." None None)
    = Returned "Hello, World!"
  ∧ displayed (trace (get_streaming_response (scripted (Yield <$> hello_chunks))
                        "What is this?" "Be brief." None None))
    = ["Hello, World!"].
Proof.
  apply (order_preservation (scripted (Yield <$> hello_chunks))
           "What is this?" "Be brief." None None {| handle := 0 |} hello_chunks);
    reflexivity.
Defined.

(** A fragment built from a delta delivers that delta. *)
Lemma delta_text_fragment (d : string) : delta_text (fragment d) = d.
Proof. reflexivity. Qed.

(** ** P4: message shape *)

(** C2.  Every request a call sends carries exactly two messages, the
    first with role "system" and the system prompt as content, the second
    with role "user" and the prompt as content; the call sends one request
    (none only when no client handle could be built). *)
Theorem message_shape (w : world) (prompt system_prompt : string)
    (model : option string) (client : option OpenAI) :
  Forall (fun cr : OpenAI * request =>
            ∃ m1 m2 : gmap string string,
              messages cr.2 = [m1; m2]
              ∧ m1 !! "role" = Some "system"
              ∧ m1 !! "content" = Some system_prompt
              ∧ m2 !! "role" = Some "user"
              ∧ m2 !! "content" = Some prompt)
    (requested (trace (get_streaming_response w prompt system_prompt model client)))
  ∧ length (requested
              (trace (get_streaming_response w prompt system_prompt model client)))
    = match result (client_or_default w client) with
      | Returned _ => 1
      | Raised _ => 0
      end.
Proof.
  rewrite requested_run.
  destruct (result (client_or_default w client)) as [c|e]; [|by split].
  split; [|done]. apply Forall_singleton. cbn.
  exists {[ "role" := "system"; "content" := system_prompt ]},
         {[ "role" := "user"; "content" := prompt ]}.
  split; [done|]. by simplify_map_eq.
Qed.

(** ** P7: failure propagation *)

(** C3.  When the stream raises [e] after the fragments [chunks] (possibly
    none) were consumed, the call raises that same [e], returns no value,
    and the display is never invoked. *)
Theorem failure_propagation (w : world) (prompt system_prompt : string)
    (model : option string) (client : option OpenAI) (c : OpenAI)
    (chunks : list ChatCompletionChunk) (e : exn) (rest : Stream) :
  result (client_or_default w client) = Returned c →
  completions_create w c (outbound prompt system_prompt model)
    = Returned ((Yield <$> chunks) ++ Fail e :: rest) →
  result (get_streaming_response w prompt system_prompt model client) = Raised e
  ∧ displayed (trace (get_streaming_response w prompt system_prompt model client))
    = [].
Proof.
  intros Hc Hs. rewrite (run_fail _ _ _ _ _ _ _ _ _ Hc Hs).
  split; [done|]. unfold trace at 1. cbn [fst].
  rewrite displayed_app, displayed_client_or_default.
  change (displayed (EvCreate ?a ?b :: ?t)) with (displayed t).
  by rewrite displayed_replicate_next.
Qed.

Lemma failure_propagation_witness :
  result (get_streaming_response (scripted dropped_stream)
            "What is this?" "Be brief." None None)
    = Raised (PyExn "APIConnectionError")
  ∧ displayed (trace (get_streaming_response (scripted dropped_stream)
                        "What is this?" "Be brief." None None))
    = [].
Proof.
  apply (failure_propagation (scripted dropped_stream)
           "What is this?" "Be brief." None None {| handle := 0 |}
           [fragment "Hel"] (PyExn "APIConnectionError") [Yield (fragment "lo")]);
    reflexivity.
Defined.

(** ** P2: empty-fragment tolerance *)

Lemma concat_deltas_filter (chunks : list ChatCompletionChunk) :
  concat_deltas (delta_text <$> List.filter (fun c => negb (no_delta c)) chunks)
  = concat_deltas (delta_text <$> chunks).
Proof.
  induction chunks as [|c cs IH]; [done|].
  rewrite fmap_cons, concat_deltas_cons. cbn [List.filter]. unfold no_delta at 1.
  destruct (String.eqb_spec (delta_text c) "") as [->|_]; cbn [negb].
  - by rewrite IH.
  - by rewrite fmap_cons, concat_deltas_cons, IH.
Qed.

(** C4.  The loop over any fragment sequence raises nothing, and ends with
    the same text as the loop over the sequence with the fragments that
    deliver nothing (no choices, or no content) taken out. *)
Theorem empty_fragment_tolerance (chunks : list ChatCompletionChunk)
    (acc : string) :
  ∃ text,
    result (for_chunks (Yield <$> chunks) acc) = Returned text
    ∧ result (for_chunks
                (Yield <$> List.filter (fun c => negb (no_delta c)) chunks) acc)
      = Returned text.
Proof.
  exists (acc +:+ concat_deltas (delta_text <$> chunks)).
  by rewrite !for_chunks_yield, concat_deltas_filter.
Qed.

(** ** P3: empty overall response *)

Lemma concat_deltas_silent (chunks : list ChatCompletionChunk) :
  forallb no_delta chunks = true →
  concat_deltas (delta_text <$> chunks) = "".
Proof.
  induction chunks as [|c cs IH]; [done|].
  cbn [forallb]. intros [Hc Hcs]%andb_true_iff.
  rewrite fmap_cons, concat_deltas_cons, (IH Hcs).
  apply String.eqb_eq in Hc. by rewrite Hc.
Qed.

(** C5.  When no fragment delivers a delta, the call returns the empty
    string and the display is invoked exactly once, with the empty
    string. *)
Theorem empty_overall_response (w : world) (prompt system_prompt : string)
    (model : option string) (client : option OpenAI) (c : OpenAI)
    (chunks : list ChatCompletionChunk) :
  result (client_or_default w client) = Returned c →
  completions_create w c (outbound prompt system_prompt model)
    = Returned (Yield <$> chunks) →
  forallb no_delta chunks = true →
  display_Markdown w "" = Returned () →
  result (get_streaming_response w prompt system_prompt model client)
    = Returned ""
  ∧ displayed (trace (get_streaming_response w prompt system_prompt model client))
    = [""].
Proof.
  intros Hc Hs Hq Hd. rewrite <- (concat_deltas_silent _ Hq) in Hd |- *.
  exact (run_yield_observed w prompt system_prompt model client c chunks Hc Hs Hd).
Qed.

Lemma empty_overall_response_witness :
  result (get_streaming_response (scripted (Yield <$> silent_chunks))
            "What is this?" "Be brief." None None)
    = Returned ""
  ∧ displayed (trace (get_streaming_response (scripted (Yield <$> silent_chunks))
                        "What is this?" "Be brief." None None))
    = [""].
Proof.
  apply (empty_overall_response (scripted (Yield <$> silent_chunks))
           "What is this?" "Be brief." None None {| handle := 0 |} silent_chunks);
    reflexivity.
Defined.

(** ** Release of the stream handle *)

Lemma trace_pair {A} (t : list event) (o : outcome A) : trace (t, o) = t.
Proof. reflexivity. Qed.

Lemma result_pair {A} (t : list event) (o : outcome A) : result (t, o) = o.
Proof. reflexivity. Qed.

Lemma trace_bind {A B} (m : M A) (f : A → M B) :
  trace (m ≫= f)
  = trace m ++ match result m with
               | Returned a => trace (f a)
               | Raised _ => []
               end.
Proof. destruct m as [t [a|e]]; cbn; [done|by rewrite app_nil_r]. Qed.

Lemma released_app (t1 t2 : list event) :
  released (t1 ++ t2) = released t1 || released t2.
Proof. apply existsb_app. Qed.

Lemma pulled_app (t1 t2 : list event) : pulled (t1 ++ t2) = pulled t1 + pulled t2.
Proof. unfold pulled. by rewrite List.filter_app, length_app. Qed.

Lemma constructed_app (t1 t2 : list event) :
  constructed (t1 ++ t2) = constructed t1 + constructed t2.
Proof. unfold constructed. by rewrite List.filter_app, length_app. Qed.

(** C6, as the specification states it, fails: on a connection that drops
    after the first fragment a stream was acquired, the error reaches the
    caller, and the stream was never closed. *)
Lemma release_on_error_counterexample :
  acquired (scripted dropped_stream)
    (trace (get_streaming_response (scripted dropped_stream)
              "What is this?" "Be brief." None None)) = true
  ∧ result (get_streaming_response (scripted dropped_stream)
              "What is this?" "Be brief." None None)
    = Raised (PyExn "APIConnectionError")
  ∧ released (trace (get_streaming_response (scripted dropped_stream)
                       "What is this?" "Be brief." None None)) = false.
Proof. by vm_compute. Qed.

(** C6, amended.  A call that was handed a stream never closes it, on any
    exit path; when the call returns, the stream has been iterated to
    exhaustion: one [next()] per item and one for the end of the stream. *)
Theorem stream_drained_not_closed (w : world) (prompt system_prompt : string)
    (model : option string) (client : option OpenAI) (c : OpenAI) (s : Stream) :
  result (client_or_default w client) = Returned c →
  completions_create w c (outbound prompt system_prompt model) = Returned s →
  released (trace (get_streaming_response w prompt system_prompt model client))
    = false
  ∧ match result (get_streaming_response w prompt system_prompt model client) with
    | Returned _ =>
        pulled (trace (get_streaming_response w prompt system_prompt model client))
        = S (length s)
    | Raised _ => True
    end.
Proof.
  intros Hc Hs. rewrite (run_served _ _ _ _ _ _ _ Hc Hs).
  rewrite trace_pair, result_pair.
  assert (Hpre : released (trace (client_or_default w client)) = false
                 ∧ pulled (trace (client_or_default w client)) = 0)
    by (by destruct client).
  destruct Hpre as [Hrel Hpull].
  rewrite released_app, pulled_app, Hrel, Hpull.
  change (released (EvCreate ?a ?b :: ?t)) with (released t).
  change (pulled (EvCreate ?a ?b :: ?t)) with (pulled t).
  destruct (result (for_chunks s "")) as [text|e] eqn:Hr.
  - rewrite (after_create_returned _ _ _ Hr), (for_chunks_returned _ _ _ Hr).
    rewrite trace_pair, result_pair.
    rewrite released_app, pulled_app, released_replicate_next,
      pulled_replicate_next.
    split; [done|]. destruct (display_Markdown w text); [|done].
    cbn. lia.
  - rewrite (after_create_raised _ _ _ Hr), trace_pair, result_pair.
    destruct (for_chunks_trace s "") as [n Hn].
    by rewrite Hn, released_replicate_next.
Qed.

Lemma stream_drained_not_closed_witness :
  released (trace (get_streaming_response (scripted (Yield <$> hello_chunks))
                     "What is this?" "Be brief." None None)) = false
  ∧ match result (get_streaming_response (scripted (Yield <$> hello_chunks))
                    "What is this?" "Be brief." None None) with
    | Returned _ =>
        pulled (trace (get_streaming_response (scripted (Yield <$> hello_chunks))
                         "What is this?" "Be brief." None None))
        = S (length (Yield <$> hello_chunks))
    | Raised _ => True
    end.
Proof.
  apply (stream_drained_not_closed (scripted (Yield <$> hello_chunks))
           "What is this?" "Be brief." None None {| handle := 0 |}
           (Yield <$> hello_chunks));
    reflexivity.
Defined.

(** ** P5: default model *)

(** C7.  A call that leaves [model] out sends its request with the model
    "gpt-4o-mini", whatever the other arguments and the collaborators. *)
Theorem default_model_used (w : world) (prompt system_prompt : string)
    (client : option OpenAI) :
  (fun cr : OpenAI * request => model cr.2)
    <$> requested (trace (get_streaming_response w prompt system_prompt None client))
  = match result (client_or_default w client) with
    | Returned _ => ["gpt-4o-mini"]
    | Raised _ => []
    end.
Proof.
  rewrite requested_run.
  by destruct (result (client_or_default w client)).
Qed.

(** ** P6: client injection *)

Lemma constructed_run (w : world) (prompt system_prompt : string)
    (model : option string) (client : option OpenAI) :
  constructed (trace (get_streaming_response w prompt system_prompt model client))
  = match client with Some _ => 0 | None => 1 end.
Proof.
  rewrite run_unfold.
  assert (Hk : ∀ c, constructed (trace
            (call (EvCreate c (outbound prompt system_prompt model))
               (completions_create w c (outbound prompt system_prompt model))
             ≫= after_create w)) = 0).
  { intros c. destruct (completions_create w c _) as [s|e]; [|done].
    destruct (after_create_trace w s) as (n & shown & Ht & Hshown).
    cbn. unfold trace in Ht. rewrite Ht.
    change (constructed (replicate n EvNext ++ shown) = 0).
    rewrite constructed_app, constructed_replicate_next.
    by destruct Hshown as [->|[text ->]]. }
  rewrite trace_bind, constructed_app.
  destruct client as [c|].
  - change (result (client_or_default w (Some c))) with (Returned c).
    cbv beta iota. by rewrite Hk.
  - change (result (client_or_default w None)) with (OpenAI_new w).
    change (trace (client_or_default w None)) with [EvOpenAI].
    destruct (OpenAI_new w) as [c|e]; [by rewrite Hk|done].
Qed.

(** C8.  With a client handle supplied, [OpenAI()] is never called and the
    one request goes out on the supplied handle; with the argument left
    out, [OpenAI()] is called once. *)
Theorem client_injection (w : world) (prompt system_prompt : string)
    (model : option string) :
  (∀ c : OpenAI,
     constructed
       (trace (get_streaming_response w prompt system_prompt model (Some c))) = 0
     ∧ (requested
          (trace (get_streaming_response w prompt system_prompt model (Some c)))).*1
       = [c])
  ∧ constructed
      (trace (get_streaming_response w prompt system_prompt model None)) = 1.
Proof.
  split; [intros c; split|].
  - apply constructed_run.
  - by rewrite requested_run.
  - apply constructed_run.
Qed.

(** ** Only the first choice is read *)

Lemma delta_text_first_choice_only (chunk : ChatCompletionChunk) :
  delta_text (first_choice_only chunk) = delta_text chunk.
Proof. by destruct chunk as [[|choice0 more]]. Qed.

Lemma for_chunks_first_choices (s : Stream) (acc : string) :
  for_chunks (first_choices s) acc = for_chunks s acc.
Proof.
  revert acc. induction s as [|[chunk|e] s IH]; intros acc; [done| |done].
  change (first_choices (Yield chunk :: s))
    with (Yield (first_choice_only chunk) :: first_choices s).
  by rewrite !for_chunks_cons_yield, delta_text_first_choice_only, IH.
Qed.

(** C9.  For a fragment with one or more choices the loop body reads the
    first choice's delta and appends it to the text gathered so far (a
    missing or empty content appends nothing), and that is all it does:
    the result is the same whatever the later choices are, so their deltas
    never reach the returned text.  Over a whole stream: the loop gives
    the same log and outcome as over the stream with all later choices
    dropped, and over a list of fragments it returns the starting text
    followed by the first-choice deltas in arrival order. *)
Theorem first_choice_only_read (s : Stream) (acc : string) :
  for_chunks (first_choices s) acc = for_chunks s acc
  ∧ (∀ (choice0 : Choice) (more more' : list Choice),
       loop_body acc {| choices := choice0 :: more |}
       = loop_body acc {| choices := choice0 :: more' |})
  ∧ (∀ (choice0 : Choice) (more : list Choice),
       loop_body acc {| choices := choice0 :: more |}
       = ([], Returned (acc +:+ default "" (content (delta choice0)))))
  ∧ (∀ chunks : list ChatCompletionChunk,
       result (for_chunks (Yield <$> chunks) acc)
       = Returned
           (acc +:+ concat_deltas
                      ((fun chunk =>
                          match choices chunk with
                          | [] => ""
                          | choice0 :: _ => default "" (content (delta choice0))
                          end) <$> chunks))).
Proof.
  split; [apply for_chunks_first_choices|].
  split; [intros choice0 more more'; by rewrite !loop_body_delta|].
  split; [intros choice0 more; by rewrite loop_body_delta|].
  intros chunks. by rewrite for_chunks_yield.
Qed.

(** ** Determinism *)

Lemma for_chunks_result_deltas (s1 s2 : Stream) (acc : string) :
  item_delta <$> s1 = item_delta <$> s2 →
  result (for_chunks s1 acc) = result (for_chunks s2 acc).
Proof.
  revert s2 acc.
  induction s1 as [|[c1|e1] s1 IH]; intros [|[c2|e2] s2] acc H;
    try discriminate H; [done| |].
  - rewrite !fmap_cons in H. injection H as Hd Hs.
    rewrite !for_chunks_cons_yield, !result_pair, Hd. by apply IH.
  - rewrite !fmap_cons in H. by injection H as -> _.
Qed.

(** Value and display payloads of the part of the call after [create]. *)
Lemma after_create_observed (w : world) (s : Stream) :
  result (after_create w s)
  = match result (for_chunks s "") with
    | Returned text =>
        match display_Markdown w text with
        | Returned _ => Returned text
        | Raised e => Raised e
        end
    | Raised e => Raised e
    end
  ∧ displayed (trace (after_create w s))
    = match result (for_chunks s "") with
      | Returned text => [text]
      | Raised _ => []
      end.
Proof.
  destruct (for_chunks_trace s "") as [n Hn].
  destruct (result (for_chunks s "")) as [text|e] eqn:Hr.
  - rewrite (after_create_returned _ _ _ Hr), trace_pair, result_pair, Hn.
    by rewrite displayed_app, displayed_replicate_next.
  - rewrite (after_create_raised _ _ _ Hr), trace_pair, result_pair, Hn.
    by rewrite displayed_replicate_next.
Qed.

(** C10.  Two calls whose streams deliver the same sequence of text deltas
    (and the same error, if any) return the same value and display the
    same payloads, whatever their prompts, system prompts, models and
    clients, as long as rendering behaves the same in both. *)
Theorem accumulation_deterministic (w1 w2 : world)
    (prompt1 prompt2 system_prompt1 system_prompt2 : string)
    (model1 model2 : option string) (client1 client2 : option OpenAI)
    (c1 c2 : OpenAI) (s1 s2 : Stream) :
  result (client_or_default w1 client1) = Returned c1 →
  result (client_or_default w2 client2) = Returned c2 →
  completions_create w1 c1 (outbound prompt1 system_prompt1 model1) = Returned s1 →
  completions_create w2 c2 (outbound prompt2 system_prompt2 model2) = Returned s2 →
  item_delta <$> s1 = item_delta <$> s2 →
  (∀ md, display_Markdown w1 md = display_Markdown w2 md) →
  result (get_streaming_response w1 prompt1 system_prompt1 model1 client1)
  = result (get_streaming_response w2 prompt2 system_prompt2 model2 client2)
  ∧ displayed
      (trace (get_streaming_response w1 prompt1 system_prompt1 model1 client1))
    = displayed
        (trace (get_streaming_response w2 prompt2 system_prompt2 model2 client2)).
Proof.
  intros Hc1 Hc2 Hs1 Hs2 Hd Hw.
  rewrite (run_served _ _ _ _ _ _ _ Hc1 Hs1), (run_served _ _ _ _ _ _ _ Hc2 Hs2).
  rewrite !trace_pair, !result_pair, !displayed_app,
    !displayed_client_or_default.
  change (displayed (EvCreate c1 ?b :: ?t)) with (displayed t).
  change (displayed (EvCreate c2 ?b :: ?t)) with (displayed t).
  destruct (after_create_observed w1 s1) as [-> ->].
  destruct (after_create_observed w2 s2) as [-> ->].
  rewrite (for_chunks_result_deltas s1 s2 "" Hd).
  split; [|done].
  destruct (result (for_chunks s2 "")) as [text|e]; [|done].
  by rewrite Hw.
Qed.

Lemma accumulation_deterministic_witness :
  result (get_streaming_response (scripted (Yield <$> hello_chunks))
            "What is this?" "Be brief." None None)
  = result (get_streaming_response (scripted (Yield <$> hello_chunks_alt))
              "And this?" "" (Some "gpt-4o") (Some {| handle := 7 |}))
  ∧ displayed
      (trace (get_streaming_response (scripted (Yield <$> hello_chunks))
                "What is this?" "Be brief." None None))
    = displayed
        (trace (get_streaming_response (scripted (Yield <$> hello_chunks_alt))
                  "And this?" "" (Some "gpt-4o") (Some {| handle := 7 |}))).
Proof.
  apply (accumulation_deterministic
           (scripted (Yield <$> hello_chunks))
           (scripted (Yield <$> hello_chunks_alt))
           "What is this?" "And this?" "Be brief." "" None (Some "gpt-4o")
           None (Some {| handle := 7 |}) {| handle := 0 |} {| handle := 7 |}
           (Yield <$> hello_chunks) (Yield <$> hello_chunks_alt));
    reflexivity.
Defined.

(** ** Failures before and after the stream *)

Lemma run_unconstructed (w : world) (prompt system_prompt : string)
    (model : option string) (client : option OpenAI) (e : exn) :
  result (client_or_default w client) = Raised e →
  get_streaming_response w prompt system_prompt model client
  = ([EvOpenAI], Raised e).
Proof.
  intros H. rewrite run_unfold. destruct client as [c|]; [done|].
  change (OpenAI_new w = Raised e) in H. cbn. by rewrite H.
Qed.

Lemma run_rejected (w : world) (prompt system_prompt : string)
    (model : option string) (client : option OpenAI) (c : OpenAI) (e : exn) :
  result (client_or_default w client) = Returned c →
  completions_create w c (outbound prompt system_prompt model) = Raised e →
  get_streaming_response w prompt system_prompt model client
  = (trace (client_or_default w client)
       ++ [EvCreate c (outbound prompt system_prompt model)],
     Raised e).
Proof.
  intros Hc Hs. rewrite run_unfold.
  destruct (client_or_default w client) as [t o]. cbn in Hc. subst o.
  cbn. by rewrite Hs.
Qed.

Lemma trace_client_or_default (w : world) (client : option OpenAI) :
  trace (client_or_default w client)
  = match client with None => [EvOpenAI] | Some _ => [] end.
Proof. by destruct client. Qed.

(** X1.  When the default client cannot be built, the error of [OpenAI()]
    is what the call raises, and [OpenAI()] is the only call made: no
    request goes out, nothing is pulled, nothing is displayed. *)
Theorem construction_failure (w : world) (prompt system_prompt : string)
    (model : option string) (e : exn) :
  OpenAI_new w = Raised e →
  get_streaming_response w prompt system_prompt model None
  = ([EvOpenAI], Raised e).
Proof. intros H. by apply run_unconstructed. Qed.

Lemma construction_failure_witness :
  get_streaming_response no_credentials "What is this?" "Be brief." None None
  = ([EvOpenAI], Raised (PyExn "OpenAIError")).
Proof.
  apply (construction_failure no_credentials "What is this?" "Be brief." None
           (PyExn "OpenAIError")).
  reflexivity.
Defined.

(** X2.  When the service turns the request down, its error is what the
    call raises; the request was sent once and not retried, the iterator
    was never touched and nothing was displayed. *)
Theorem request_failure (w : world) (prompt system_prompt : string)
    (model : option string) (client : option OpenAI) (c : OpenAI) (e : exn) :
  result (client_or_default w client) = Returned c →
  completions_create w c (outbound prompt system_prompt model) = Raised e →
  result (get_streaming_response w prompt system_prompt model client) = Raised e
  ∧ (requested
       (trace (get_streaming_response w prompt system_prompt model client))).*1
    = [c]
  ∧ pulled (trace (get_streaming_response w prompt system_prompt model client))
    = 0
  ∧ displayed (trace (get_streaming_response w prompt system_prompt model client))
    = [].
Proof.
  intros Hc Hs. rewrite requested_run, Hc, (run_rejected _ _ _ _ _ _ _ Hc Hs).
  rewrite trace_pair, result_pair, pulled_app, displayed_app,
    trace_client_or_default.
  by destruct client.
Qed.

Lemma request_failure_witness :
  result (get_streaming_response rejecting "What is this?" "Be brief." None None)
    = Raised (PyExn "RateLimitError")
  ∧ (requested
       (trace (get_streaming_response rejecting
                 "What is this?" "Be brief." None None))).*1
    = [{| handle := 0 |}]
  ∧ pulled (trace (get_streaming_response rejecting
                     "What is this?" "Be brief." None None))
    = 0
  ∧ displayed (trace (get_streaming_response rejecting
                        "What is this?" "Be brief." None None))
    = [].
Proof.
  apply (request_failure rejecting "What is this?" "Be brief." None None
           {| handle := 0 |} (PyExn "RateLimitError"));
    reflexivity.
Defined.

(** X3.  When rendering raises, the call raises that error and returns
    nothing, although the stream had been drained to its end and the full
    text had been handed to the display. *)
Theorem rendering_failure (w : world) (prompt system_prompt : string)
    (model : option string) (client : option OpenAI) (c : OpenAI)
    (chunks : list ChatCompletionChunk) (e : exn) :
  result (client_or_default w client) = Returned c →
  completions_create w c (outbound prompt system_prompt model)
    = Returned (Yield <$> chunks) →
  display_Markdown w (concat_deltas (delta_text <$> chunks)) = Raised e →
  result (get_streaming_response w prompt system_prompt model client) = Raised e
  ∧ displayed (trace (get_streaming_response w prompt system_prompt model client))
    = [concat_deltas (delta_text <$> chunks)]
  ∧ pulled (trace (get_streaming_response w prompt system_prompt model client))
    = S (length chunks).
Proof.
  intros Hc Hs Hd. rewrite (run_yield _ _ _ _ _ _ _ Hc Hs). cbn zeta.
  rewrite trace_pair, result_pair, Hd, trace_client_or_default.
  rewrite displayed_app, pulled_app.
  change (displayed (EvCreate ?a ?b :: ?t)) with (displayed t).
  change (pulled (EvCreate ?a ?b :: ?t)) with (pulled t).
  rewrite displayed_app, pulled_app, displayed_replicate_next,
    pulled_replicate_next.
  destruct client; cbn; repeat split; lia.
Qed.

Lemma rendering_failure_witness :
  result (get_streaming_response (headless (Yield <$> hello_chunks))
            "What is this?" "Be brief." None None)
    = Raised (PyExn "NameError")
  ∧ displayed (trace (get_streaming_response (headless (Yield <$> hello_chunks))
                        "What is this?" "Be brief." None None))
    = ["Hello, World!"]
  ∧ pulled (trace (get_streaming_response (headless (Yield <$> hello_chunks))
                     "What is this?" "Be brief." None None))
    = 5.
Proof.
  apply (rendering_failure (headless (Yield <$> hello_chunks))
           "What is this?" "Be brief." None None {| handle := 0 |}
           hello_chunks (PyExn "NameError"));
    reflexivity.
Defined.

(** ** What a returned value tells *)

(** X4.  A call returns a text only when everything went through: a client
    handle was there, the service answered with a stream that never
    raised, the text is the concatenation of all its deltas (nothing
    partial), rendering succeeded, and that same text is the one payload
    that was displayed. *)
Theorem returned_means_complete (w : world) (prompt system_prompt : string)
    (model : option string) (client : option OpenAI) (text : string) :
  result (get_streaming_response w prompt system_prompt model client)
    = Returned text →
  ∃ (c : OpenAI) (chunks : list ChatCompletionChunk),
    result (client_or_default w client) = Returned c
    ∧ completions_create w c (outbound prompt system_prompt model)
      = Returned (Yield <$> chunks)
    ∧ text = concat_deltas (delta_text <$> chunks)
    ∧ display_Markdown w text = Returned ()
    ∧ displayed
        (trace (get_streaming_response w prompt system_prompt model client))
      = [text].
Proof.
  intros H.
  destruct (result (client_or_default w client)) as [c|e] eqn:Hc;
    [|by rewrite (run_unconstructed _ _ _ _ _ _ Hc) in H].
  destruct (completions_create w c (outbound prompt system_prompt model))
    as [s|e] eqn:Hs; [|by rewrite (run_rejected _ _ _ _ _ _ _ Hc Hs) in H].
  destruct (stream_shape s) as [(chunks & ->)|(chunks & e & rest & ->)];
    [|by rewrite (run_fail _ _ _ _ _ _ _ _ _ Hc Hs) in H].
  exists c, chunks. split; [done|]. split; [done|].
  pose proof (run_yield _ _ _ _ _ _ _ Hc Hs) as Hrun. cbn zeta in Hrun.
  rewrite Hrun, result_pair in H.
  destruct (display_Markdown w (concat_deltas (delta_text <$> chunks)))
    as [[]|e] eqn:Hd; [|done].
  injection H as <-. split; [done|]. split; [done|].
  by apply (run_yield_observed _ _ _ _ _ c).
Qed.

Lemma returned_means_complete_witness :
  ∃ (c : OpenAI) (chunks : list ChatCompletionChunk),
    result (client_or_default (scripted (Yield <$> hello_chunks)) None)
      = Returned c
    ∧ completions_create (scripted (Yield <$> hello_chunks)) c
        (outbound "What is this?" "Be brief." None)
      = Returned (Yield <$> chunks)
    ∧ "Hello, World!" = concat_deltas (delta_text <$> chunks)
    ∧ display_Markdown (scripted (Yield <$> hello_chunks)) "Hello, World!"
      = Returned ()
    ∧ displayed
        (trace (get_streaming_response (scripted (Yield <$> hello_chunks))
                  "What is this?" "Be brief." None None))
      = ["Hello, World!"].
Proof.
  apply (returned_means_complete (scripted (Yield <$> hello_chunks))
           "What is this?" "Be brief." None None "Hello, World!").
  reflexivity.
Defined.

(** ** The order of the calls *)

(** X5.  Served a stream that never raises, the call makes its calls in
    this order and no others: [OpenAI()] if no client was supplied, the
    one request, one [next()] per fragment and one for the end of the
    stream, and only then the single [display] of the whole text; nothing
    is rendered while fragments are still arriving.  This holds whether
    or not the rendering then succeeds. *)
Theorem call_sequence (w : world) (prompt system_prompt : string)
    (model : option string) (client : option OpenAI) (c : OpenAI)
    (chunks : list ChatCompletionChunk) :
  result (client_or_default w client) = Returned c →
  completions_create w c (outbound prompt system_prompt model)
    = Returned (Yield <$> chunks) →
  trace (get_streaming_response w prompt system_prompt model client)
  = match client with None => [EvOpenAI] | Some _ => [] end
    ++ EvCreate c (outbound prompt system_prompt model)
    :: replicate (S (length chunks)) EvNext
    ++ [EvDisplay (concat_deltas (delta_text <$> chunks))].
Proof.
  intros Hc Hs. rewrite (run_yield _ _ _ _ _ _ _ Hc Hs). cbn zeta.
  by rewrite trace_pair, trace_client_or_default.
Qed.

Lemma call_sequence_witness :
  trace (get_streaming_response (scripted (Yield <$> hello_chunks))
           "What is this?" "Be brief." None None)
  = [EvOpenAI]
    ++ EvCreate {| handle := 0 |} (outbound "What is this?" "Be brief." None)
    :: replicate (S (length hello_chunks)) EvNext
    ++ [EvDisplay (concat_deltas (delta_text <$> hello_chunks))].
Proof.
  apply (call_sequence (scripted (Yield <$> hello_chunks))
           "What is this?" "Be brief." None None {| handle := 0 |} hello_chunks);
    reflexivity.
Defined.

(** X6.  When the stream raises after some fragments, the failing [next()]
    is the last call the function makes: whatever the stream would have
    delivered afterwards is never pulled, and neither a display nor a
    second request follows. *)
Theorem stops_at_failure (w : world) (prompt system_prompt : string)
    (model : option string) (client : option OpenAI) (c : OpenAI)
    (chunks : list ChatCompletionChunk) (e : exn) (rest : Stream) :
  result (client_or_default w client) = Returned c →
  completions_create w c (outbound prompt system_prompt model)
    = Returned ((Yield <$> chunks) ++ Fail e :: rest) →
  trace (get_streaming_response w prompt system_prompt model client)
  = match client with None => [EvOpenAI] | Some _ => [] end
    ++ EvCreate c (outbound prompt system_prompt model)
    :: replicate (S (length chunks)) EvNext.
Proof.
  intros Hc Hs. rewrite (run_fail _ _ _ _ _ _ _ _ _ Hc Hs).
  by rewrite trace_pair, trace_client_or_default.
Qed.

Lemma stops_at_failure_witness :
  trace (get_streaming_response (scripted dropped_stream)
           "What is this?" "Be brief." None None)
  = [EvOpenAI]
    ++ EvCreate {| handle := 0 |} (outbound "What is this?" "Be brief." None)
    :: replicate 2 EvNext.
Proof.
  apply (stops_at_failure (scripted dropped_stream)
           "What is this?" "Be brief." None None {| handle := 0 |}
           [fragment "Hel"] (PyExn "APIConnectionError")
           [Yield (fragment "lo")]);
    reflexivity.
Defined.

(** ** What no call ever does *)

(** The log of any call: at most one [OpenAI()], then at most one request,
    then [next()] calls, then at most one [display]. *)
Lemma run_trace_shape (w : world) (prompt system_prompt : string)
    (model : option string) (client : option OpenAI) :
  ∃ (pre mid shown : list event) (n : nat),
    trace (get_streaming_response w prompt system_prompt model client)
    = pre ++ mid ++ replicate n EvNext ++ shown
    ∧ (pre = [] ∨ pre = [EvOpenAI])
    ∧ (mid = [] ∨ ∃ c req, mid = [EvCreate c req])
    ∧ (shown = [] ∨ ∃ text, shown = [EvDisplay text]).
Proof.
  destruct (result (client_or_default w client)) as [c|e] eqn:Hc.
  - destruct (completions_create w c (outbound prompt system_prompt model))
      as [s|e] eqn:Hs.
    + rewrite (run_served _ _ _ _ _ _ _ Hc Hs), trace_pair,
        trace_client_or_default.
      destruct (after_create_trace w s) as (n & shown & -> & Hshown).
      exists (match client with None => [EvOpenAI] | Some _ => [] end),
        [EvCreate c (outbound prompt system_prompt model)], shown, n.
      split; [done|]. split; [destruct client; auto|]. split; [eauto|done].
    + rewrite (run_rejected _ _ _ _ _ _ _ Hc Hs), trace_pair,
        trace_client_or_default.
      exists (match client with None => [EvOpenAI] | Some _ => [] end),
        [EvCreate c (outbound prompt system_prompt model)], [], 0.
      split; [done|]. split; [destruct client; auto|]. split; [eauto|auto].
  - rewrite (run_unconstructed _ _ _ _ _ _ Hc), trace_pair.
    exists [EvOpenAI], [], [], 0. repeat split; auto.
Qed.

(** X7.  Whatever the collaborators do, a call builds at most one client,
    sends at most one request (no retry), renders at most once, and never
    closes the stream. *)
Theorem call_budget (w : world) (prompt system_prompt : string)
    (model : option string) (client : option OpenAI) :
  constructed (trace (get_streaming_response w prompt system_prompt model client))
    ≤ 1
  ∧ length (requested
              (trace (get_streaming_response w prompt system_prompt model client)))
    ≤ 1
  ∧ length (displayed
              (trace (get_streaming_response w prompt system_prompt model client)))
    ≤ 1
  ∧ released (trace (get_streaming_response w prompt system_prompt model client))
    = false.
Proof.
  destruct (run_trace_shape w prompt system_prompt model client)
    as (pre & mid & shown & n & -> & Hpre & Hmid & Hshown).
  unfold requested, displayed. rewrite !omap_app.
  fold (requested pre) (requested mid) (requested (replicate n EvNext))
    (requested shown) (displayed pre) (displayed mid)
    (displayed (replicate n EvNext)) (displayed shown).
  rewrite !constructed_app, !released_app, !length_app,
    constructed_replicate_next, requested_replicate_next,
    displayed_replicate_next, released_replicate_next.
  destruct Hpre as [->| ->], Hmid as [->|(c & req & ->)],
    Hshown as [->|(text & ->)]; cbn; repeat split; lia.
Qed.

(** ** The loop as a fold *)

(** X8.  The loop can be cut anywhere: running it over [s1 ++ s2] is
    running it over [s1] and, if that did not raise, going on over [s2]
    from the text gathered so far; an error in [s1] hides [s2]. *)
Theorem loop_resumes (s1 s2 : Stream) (acc : string) :
  result (for_chunks (s1 ++ s2) acc)
  = match result (for_chunks s1 acc) with
    | Returned gathered => result (for_chunks s2 gathered)
    | Raised e => Raised e
    end.
Proof.
  revert acc. induction s1 as [|[chunk|e] s1 IH]; intros acc; [done| |done].
  change ((Yield chunk :: s1) ++ s2) with (Yield chunk :: (s1 ++ s2)).
  by rewrite !for_chunks_cons_yield, !result_pair, IH.
Qed.

Lemma prefix_append (s t : string) : String.prefix s (s +:+ t) = true.
Proof.
  induction s as [|a s IH]; [by destruct t|].
  change (String a s +:+ t) with (String a (s +:+ t)). cbn.
  by destruct (Ascii.ascii_dec a a).
Qed.

Lemma length_append (s t : string) :
  String.length (s +:+ t) = String.length s + String.length t.
Proof.
  induction s as [|a s IH]; [done|].
  change (String a s +:+ t) with (String a (s +:+ t)). cbn. by rewrite IH.
Qed.

Lemma length_concat_deltas (ds : list string) :
  String.length (concat_deltas ds) = sum_list (String.length <$> ds).
Proof.
  induction ds as [|d ds IH]; [done|].
  by rewrite concat_deltas_cons, length_append, IH.
Qed.

(** X9.  The loop only ever appends: whenever it ends normally, the text it
    started from is a prefix of the text it ends with, for every stream
    and every starting text. *)
Theorem accumulator_only_grows (s : Stream) (acc text : string) :
  result (for_chunks s acc) = Returned text →
  String.prefix acc text = true.
Proof.
  destruct (stream_shape s) as [(chunks & ->)|(chunks & e & rest & ->)].
  - rewrite for_chunks_yield, result_pair. intros [= <-]. apply prefix_append.
  - by rewrite for_chunks_fail.
Qed.

Lemma accumulator_only_grows_witness :
  String.prefix "Hel" "Hello, World!" = true.
Proof.
  apply (accumulator_only_grows
           [Yield {| choices := [] |}; Yield (fragment "lo, ");
            Yield (fragment "World!")]
           "Hel" "Hello, World!").
  reflexivity.
Defined.

(** X10.  Nothing is trimmed, padded or separated: the loop over a list of
    fragments ends with a text whose length is the length of the starting
    text plus the lengths of the fragments' deltas. *)
Theorem accumulated_length (chunks : list ChatCompletionChunk) (acc : string) :
  ∃ text,
    result (for_chunks (Yield <$> chunks) acc) = Returned text
    ∧ String.length text
      = String.length acc
        + sum_list ((fun chunk => String.length (delta_text chunk)) <$> chunks).
Proof.
  exists (acc +:+ concat_deltas (delta_text <$> chunks)).
  rewrite for_chunks_yield, result_pair, length_append, length_concat_deltas.
  by rewrite <- list_fmap_compose.
Qed.

(** ** The request *)

(** X11.  A model named by the caller is forwarded as it is, and every
    request asks for streaming, with or without a model argument. *)
Theorem request_options (w : world) (prompt system_prompt m : string)
    (model_arg : option string) (client : option OpenAI) :
  (fun cr : OpenAI * request => model cr.2)
    <$> requested
          (trace (get_streaming_response w prompt system_prompt (Some m) client))
  = match result (client_or_default w client) with
    | Returned _ => [m]
    | Raised _ => []
    end
  ∧ (fun cr : OpenAI * request => stream cr.2)
      <$> requested
            (trace (get_streaming_response w prompt system_prompt model_arg client))
    = match result (client_or_default w client) with
      | Returned _ => [true]
      | Raised _ => []
      end.
Proof.
  rewrite !requested_run.
  by destruct (result (client_or_default w client)).
Qed.

(** X12.  Each of the two messages of a request has the fields "role" and
    "content" and no other. *)
Theorem message_fields (w : world) (prompt system_prompt : string)
    (model_arg : option string) (client : option OpenAI) :
  (fun cr : OpenAI * request => dom <$> messages cr.2)
    <$> requested
          (trace (get_streaming_response w prompt system_prompt model_arg client))
  = match result (client_or_default w client) with
    | Returned _ =>
        [[ ({[ "role"; "content" ]} : gset string); {[ "role"; "content" ]} ]]
    | Raised _ => []
    end.
Proof.
  rewrite requested_run.
  destruct (result (client_or_default w client)) as [c|e]; [|done].
  cbn. by rewrite !dom_insert_L, !dom_singleton_L.
Qed.

(** X13.  With the client argument left out, the handle [OpenAI()] returns
    is the one the request goes out on, and it is built before the request
    is sent: the log starts with [OpenAI()] followed by the request. *)
Theorem default_client_used (w : world) (prompt system_prompt : string)
    (model_arg : option string) (c : OpenAI) :
  OpenAI_new w = Returned c →
  take 2 (trace (get_streaming_response w prompt system_prompt model_arg None))
  = [EvOpenAI; EvCreate c (outbound prompt system_prompt model_arg)]
  ∧ (requested
       (trace (get_streaming_response w prompt system_prompt model_arg None))).*1
    = [c].
Proof.
  intros H. split.
  - rewrite run_unfold, trace_bind.
    change (trace (client_or_default w None)) with [EvOpenAI].
    change (result (client_or_default w None)) with (OpenAI_new w).
    rewrite H. cbv beta iota. by rewrite trace_bind.
  - rewrite requested_run.
    change (result (client_or_default w None)) with (OpenAI_new w).
    by rewrite H.
Qed.

Lemma default_client_used_witness :
  take 2 (trace (get_streaming_response (scripted dropped_stream)
                   "What is this?" "Be brief." None None))
  = [EvOpenAI;
     EvCreate {| handle := 0 |} (outbound "What is this?" "Be brief." None)]
  ∧ (requested
       (trace (get_streaming_response (scripted dropped_stream)
                 "What is this?" "Be brief." None None))).*1
    = [{| handle := 0 |}].
Proof.
  apply (default_client_used (scripted dropped_stream)
           "What is this?" "Be brief." None {| handle := 0 |}).
  reflexivity.
Defined.
